(** * MOT: adaptive proposal kernels and the registry lookup

    A shallow embedding of [mot/parameter_functions/proposals.py] and
    [mot/factory.py].

    The proposal classes return OpenCL C source as Python strings.  Two
    views of every kernel are kept side by side:

    - the source text, character for character, as a [string];
    - the arithmetic of the kernel body, as a function on reals, with the
      [uint] counters as integers reduced modulo [2^32].

    [model_float] is read as the real numbers: rounding is not modelled.
    Division and logarithm are the total functions of the real-number
    library, so the reading is that of the kernels where the divisor of
    the update rule is not zero and, for the value of the log-density,
    where [std] is positive. *)

From Stdlib Require Import ZArith List String Ascii Bool Reals Lra Lia.
Import ListNotations.

(** ** The fragment of OpenCL C used by the kernels *)

Module CL.

Local Open Scope Z_scope.

(** [uint] is a 32-bit unsigned integer; its arithmetic wraps around. *)
Definition UINT_MODULUS : Z := 2 ^ 32.

Definition uint (z : Z) : Z := z mod UINT_MODULUS.

Definition uint_add (a b : Z) : Z := uint (a + b).

Definition uint_sub (a b : Z) : Z := uint (a - b).

Local Open Scope R_scope.

(** Conversion of a [uint] to [model_float], explicit as in
    [(model_float)(acceptance_counter+1)] or implicit as in the divisor. *)
Definition convert_model_float (u : Z) : R := IZR u.

(** [min(x, y)] on floating types: [y] if [y < x], otherwise [x]. *)
Definition min (x y : R) : R := if Rlt_dec y x then y else x.

(** The constant [M_2_SQRTPI] of the OpenCL math header: [2/sqrt(pi)]. *)
Definition M_2_SQRTPI : R := 2 / sqrt PI.

(** [pown(x, n)]: [x] to the integer power [n]. *)
Definition pown (x : R) (n : Z) : R := powerRZ x n.

Definition log (x : R) : R := ln x.

End CL.

(** ** Kernel bodies (proposals.py, lines 101-109, 140-143 and 156-159) *)

Module Kernels.

Local Open Scope R_scope.

(** [[
    return min(current_value *
                    sqrt( (model_float)(acceptance_counter+1) /
                          ((jump_counter - acceptance_counter) + 1)
                    ),
               1e10);
    ]] *)
Definition dmriproposal_default_parameter_update
    (current_value : R) (acceptance_counter jump_counter : Z) : R :=
  CL.min (current_value *
            sqrt (CL.convert_model_float (CL.uint_add acceptance_counter 1) /
                  CL.convert_model_float
                    (CL.uint_add (CL.uint_sub jump_counter acceptance_counter) 1)))
         1e10.

(** [return current + std * ranluxcl_gaussian(ranluxclstate);] where the
    random draw is passed in as [gaussian_sample]. *)
Definition dmriproposal_gaussianProposal
    (current gaussian_sample std : R) : R :=
  current + std * gaussian_sample.

(** [return log(M_2_SQRTPI / std) + (-0.5 * pown((x - mu) / std, 2));] *)
Definition dmriproposal_gaussianProposalLogPDF (x mu std : R) : R :=
  CL.log (CL.M_2_SQRTPI / std) + (-0.5 * CL.pown ((x - mu) / std) 2).

(** The divisor of the update rule, a [uint].  Where it wraps to zero the
    kernel divides by zero; the reading over the reals is that of the
    kernel where it does not. *)
Definition update_divisor (acceptance_counter jump_counter : Z) : Z :=
  CL.uint_add (CL.uint_sub jump_counter acceptance_counter) 1.

(** The update rule as the specification words it, over the integers
    without wrap-around. *)
Definition spec_default_update (v : R) (a j : Z) : R :=
  Rmin (v * sqrt ((IZR a + 1) / (IZR j - IZR a + 1))) 1e10.

(** The log-density as the specification words it. *)
Definition spec_gaussian_log_pdf (x mu std : R) : R :=
  ln (2 / (std * sqrt PI)) - 0.5 * ((x - mu) / std) ^ 2.

End Kernels.

(** ** Text utilities for reading generated source *)

Module Text.

Local Open Scope string_scope.
Local Open Scope char_scope.

Definition newline : ascii := "010".

Definition is_space (c : ascii) : bool := (c =? " ") || (c =? "009").

(** Letters, digits and the underscore: the characters of a C identifier. *)
Definition is_ident_char (c : ascii) : bool :=
  let n := nat_of_ascii c in
  (Nat.leb 65 n && Nat.leb n 90) || (Nat.leb 97 n && Nat.leb n 122) ||
  (Nat.leb 48 n && Nat.leb n 57) || Nat.eqb n 95.

Fixpoint lines (s : string) : list string :=
  match s with
  | EmptyString => [EmptyString]
  | String c rest =>
      if c =? newline then EmptyString :: lines rest
      else match lines rest with
           | [] => [String c EmptyString]
           | l :: ls => String c l :: ls
           end
  end.

Fixpoint lstrip (s : string) : string :=
  match s with
  | EmptyString => EmptyString
  | String c rest => if is_space c then lstrip rest else s
  end.

Fixpoint rstrip (s : string) : string :=
  match s with
  | EmptyString => EmptyString
  | String c rest =>
      match rstrip rest with
      | EmptyString => if is_space c then EmptyString else String c EmptyString
      | r => String c r
      end
  end.

Definition strip (s : string) : string := rstrip (lstrip s).

Definition is_blank (s : string) : bool :=
  match s with EmptyString => true | _ => false end.

(** The lines of a fragment, stripped of surrounding blanks, empty lines
    dropped. *)
Definition nonblank_lines (src : string) : list string :=
  filter (fun l => negb (is_blank l)) (map strip (lines src)).

(** [p] occurs in [s]. *)
Definition occurs_in (p s : string) : Prop :=
  exists pre post : string, s = (pre ++ p ++ post)%string.

(** A fragment is guarded by [guard] when its first two lines test and
    define [guard] and its last line closes the conditional, naming [guard]
    again. *)
Definition include_guarded (src guard : string) : Prop :=
  guard <> EmptyString /\
  exists body : list string,
    nonblank_lines src =
      ("#ifndef " ++ guard)%string :: ("#define " ++ guard)%string ::
      body ++ [("#endif //" ++ guard)%string].








(** Where the reading of C text for function definitions stands:
    between definitions, inside the parameter list of a function, past
    its parameter list, or inside a body. *)
Inductive reading : Type :=
  | Outside
  | InParameters (name : string) (nested : nat)
  | AfterParameters (name : string)
  | InBody (nested : nat).

(** Read C text for function definitions.  A definition is an identifier,
    its parameter list between parentheses, and a body between braces; an
    identifier with a parameter list and a semicolon only declares and is
    passed over.  The names of the functions defined come back in order;
    nothing comes back when parentheses or braces stand where none can,
    or are left open at the end. *)
Fixpoint read_definitions (s : string) (state : reading) (ident : string)
    (found : list string) : option (list string) :=
  match s with
  | EmptyString =>
      match state with
      | Outside => Some (rev found)
      | _ => None
      end
  | String c rest =>
      match state with
      | Outside =>
          if is_ident_char c then
            read_definitions rest Outside
              (ident ++ String c EmptyString)%string found
          else if c =? "(" then
            match ident with
            | EmptyString => None
            | String _ _ =>
                read_definitions rest (InParameters ident 0) EmptyString found
            end
          else if (c =? ")") || (c =? "{") || (c =? "}") then None
          else read_definitions rest Outside EmptyString found
      | InParameters name nested =>
          if c =? "(" then
            read_definitions rest (InParameters name (S nested))
              EmptyString found
          else if c =? ")" then
            match nested with
            | O => read_definitions rest (AfterParameters name)
                     EmptyString found
            | S fewer => read_definitions rest (InParameters name fewer)
                           EmptyString found
            end
          else if (c =? "{") || (c =? "}") then None
          else read_definitions rest state EmptyString found
      | AfterParameters name =>
          if is_space c || (c =? newline) then
            read_definitions rest state EmptyString found
          else if c =? "{" then
            read_definitions rest (InBody 0) EmptyString (name :: found)
          else if c =? ";" then
            read_definitions rest Outside EmptyString found
          else None
      | InBody nested =>
          if c =? "{" then
            read_definitions rest (InBody (S nested)) EmptyString found
          else if c =? "}" then
            match nested with
            | O => read_definitions rest Outside EmptyString found
            | S fewer => read_definitions rest (InBody fewer)
                           EmptyString found
            end
          else read_definitions rest state EmptyString found
      end
  end.

Definition function_definitions (text : string) : option (list string) :=
  read_definitions text Outside EmptyString [].


End Text.

(** ** Python objects and methods *)

Module Py.

(** A method takes the instance and returns its result together with the
    instance as the call left it. *)
Definition method (Self A : Type) : Type := Self -> A * Self.

Definition ret {Self A : Type} (a : A) : method Self A :=
  fun self => (a, self).

Definition bind {Self A B : Type}
    (m : method Self A) (k : A -> method Self B) : method Self B :=
  fun self => let (a, self') := m self in k a self'.

(** Two calls in a row on the same instance. *)
Definition twice {Self A : Type} (m : method Self A) : method Self (A * A) :=
  bind m (fun first => bind m (fun second => ret (first, second))).

(** Attribute lookup on a class with one base: the class's own entry if it
    has one, the inherited one otherwise. *)
Definition resolve {M : Type} (own : option M) (inherited : M) : M :=
  match own with
  | Some m => m
  | None => inherited
  end.

End Py.

(** ** mot/parameter_functions/proposals.py *)

Module Proposals.

Import Py.
Local Open Scope string_scope.

(** A method body holding only a docstring returns [None]. *)
Module AbstractParameterProposal.

Definition is_symmetric {Self : Type} : method Self bool :=
  fun self => (true, self).

Definition returns_None {Self A : Type} : method Self (option A) :=
  fun self => (None, self).

End AbstractParameterProposal.

Record ProposalParameter : Type := {
  default_value : R;
  adaptable : bool
}.

Definition ProposalParameter_init (default_value : R) (adaptable : bool)
    : ProposalParameter :=
  {| default_value := default_value; adaptable := adaptable |}.

(** The string literal of proposals.py, lines 97-112. *)
Definition default_parameter_update_source : string :=
"
            #ifndef DMRIPROPOSAL_DEFAULT_PARAMETER_UPDATE
            #define DMRIPROPOSAL_DEFAULT_PARAMETER_UPDATE

            model_float dmriproposal_default_parameter_update(const model_float current_value,
                                                              const uint acceptance_counter,
                                                              const uint jump_counter){
                return min(current_value *
                                sqrt( (model_float)(acceptance_counter+1) /
                                      ((jump_counter - acceptance_counter) + 1)
                                ),
                           1e10);
            }

            #endif //DMRIPROPOSAL_DEFAULT_PARAMETER_UPDATE
        ".

(** The string literal of proposals.py, lines 136-146. *)
Definition gaussian_proposal_source : string :=
"
            #ifndef DMRIPROP_GAUSSIANPROPOSAL_CL
            #define DMRIPROP_GAUSSIANPROPOSAL_CL

            model_float dmriproposal_gaussianProposal(const model_float current, ranluxcl_state_t* const ranluxclstate,
                                                      const model_float std){
                return current + std * ranluxcl_gaussian(ranluxclstate);
            }

            #endif //DMRIPROP_GAUSSIANPROPOSAL_CL
        ".

(** The string literal of proposals.py, lines 152-162. *)
Definition gaussian_proposal_logpdf_source : string :=
"
            #ifndef DMRIPROP_GAUSSIANPROPOSALLOGPDF_CL
            #define DMRIPROP_GAUSSIANPROPOSALLOGPDF_CL

            model_float dmriproposal_gaussianProposalLogPDF(const model_float x, const model_float mu,
                                                            const model_float std){
                return log(M_2_SQRTPI / std) + (-0.5 * pown((x - mu) / std, 2));
            }

            #endif //DMRIPROP_GAUSSIANPROPOSALLOGPDF_CL
        ".

Definition get_parameter_update_function : method ProposalParameter string :=
  fun self => (default_parameter_update_source, self).

Definition get_parameter_update_function_name
    : method ProposalParameter string :=
  fun self => ("dmriproposal_default_parameter_update", self).

(** The entries a proposal class may define itself; what it leaves out is
    inherited from [AbstractParameterProposal]. *)
Record class_dict (Self : Type) : Type := {
  own_is_symmetric : option (method Self bool);
  own_get_parameters : option (method Self (option (list ProposalParameter)));
  own_get_proposal_function : option (method Self (option string));
  own_get_proposal_function_name : option (method Self (option string));
  own_get_proposal_logpdf_function : option (method Self (option string));
  own_get_proposal_logpdf_function_name : option (method Self (option string))
}.

Arguments own_is_symmetric {Self} _.
Arguments own_get_parameters {Self} _.
Arguments own_get_proposal_function {Self} _.
Arguments own_get_proposal_function_name {Self} _.
Arguments own_get_proposal_logpdf_function {Self} _.
Arguments own_get_proposal_logpdf_function_name {Self} _.

Section Dispatch.

Context {Self : Type} (cls : class_dict Self).

Definition is_symmetric : method Self bool :=
  resolve (own_is_symmetric cls) AbstractParameterProposal.is_symmetric.

Definition get_parameters : method Self (option (list ProposalParameter)) :=
  resolve (own_get_parameters cls) AbstractParameterProposal.returns_None.

Definition get_proposal_function : method Self (option string) :=
  resolve (own_get_proposal_function cls)
          AbstractParameterProposal.returns_None.




End Dispatch.

(** [AbstractParameterProposal] itself defines nothing beyond the base
    behaviour; its instances carry no attributes. *)
Definition AbstractParameterProposal_class : class_dict unit :=
  {| own_is_symmetric := None;
     own_get_parameters := None;
     own_get_proposal_function := None;
     own_get_proposal_function_name := None;
     own_get_proposal_logpdf_function := None;
     own_get_proposal_logpdf_function_name := None |}.

Record GaussianProposal : Type := {
  _parameters : list ProposalParameter
}.

(** [def __init__(self, std=1.0, adaptable=True)]: an argument left out is
    [None] here and takes its default. *)
Definition GaussianProposal_init (std : option R) (adaptable : option bool)
    : GaussianProposal :=
  let std := match std with Some s => s | None => 1%R end in
  let adaptable := match adaptable with Some a => a | None => true end in
  {| _parameters := [ProposalParameter_init std adaptable] |}.

Definition GaussianProposal_class : class_dict GaussianProposal :=
  {| own_is_symmetric := None;
     own_get_parameters := Some (fun self => (Some (_parameters self), self));
     own_get_proposal_function :=
       Some (fun self => (Some gaussian_proposal_source, self));
     own_get_proposal_function_name :=
       Some (fun self => (Some "dmriproposal_gaussianProposal", self));
     own_get_proposal_logpdf_function :=
       Some (fun self => (Some gaussian_proposal_logpdf_source, self));
     own_get_proposal_logpdf_function_name :=
       Some (fun self => (Some "dmriproposal_gaussianProposalLogPDF", self)) |}.

End Proposals.

(** ** mot/factory.py *)

Module Factory.

Local Open Scope string_scope.

(** The classes imported at the top of factory.py; the lookup hands them
    back as they are, uninstantiated. *)
Inductive routine_class : Type :=
  | LevenbergMarquardt
  | GaussianFilter
  | MeanFilter
  | MedianFilter
  | GridSearch
  | MetaOptimizer
  | NMSimplex
  | Powell
  | SerialBasinHopping
  | SerialBFGS
  | SerialLM
  | SerialNMSimplex
  | SerialPowell
  | EvenDistribution
  | RuntimeLoadBalancing
  | PreferGPU
  | PreferCPU
  | PreferSpecificEnvironment.

Inductive exception : Type :=
  | ValueError (message : string).

Inductive result (A : Type) : Type :=
  | Return (value : A)
  | Raise (e : exception).

Arguments Return {A} value.
Arguments Raise {A} e.

Section GetItem.

Context {Item : Type}.

(** [item.get_pretty_name()], defined with the items themselves. *)
Variable get_pretty_name : Item -> string.

Fixpoint _get_item (name : string) (item_list : list Item)
    (factory_type : string) : result Item :=
  match item_list with
  | item :: rest =>
      if get_pretty_name item =? name then Return item
      else _get_item name rest factory_type
  | [] =>
      Raise (ValueError ("The item with the name " ++ name ++
                         " could not be found in the " ++ factory_type ++
                         " factory."))
  end.

End GetItem.

Definition optimizers : list routine_class :=
  [LevenbergMarquardt; GridSearch; Powell; NMSimplex; MetaOptimizer;
   SerialBasinHopping; SerialBFGS; SerialLM; SerialNMSimplex; SerialPowell].

Definition filters : list routine_class :=
  [GaussianFilter; MeanFilter; MedianFilter].

Definition lb : list routine_class :=
  [EvenDistribution; RuntimeLoadBalancing; PreferGPU; PreferCPU;
   PreferSpecificEnvironment].

Section Lookups.

(** The pretty names are declared by the routine classes, outside
    factory.py: the lookups are stated for any naming of the classes. *)
Variable get_pretty_name : routine_class -> string.

Definition get_optimizer_by_name (name : string) : result routine_class :=
  _get_item get_pretty_name name optimizers "optimizers".

Definition get_filter_by_name (name : string) : result routine_class :=
  _get_item get_pretty_name name filters "smoothers".

Definition get_load_balance_strategy_by_name (name : string)
    : result routine_class :=
  _get_item get_pretty_name name lb "load balancers".

End Lookups.

(** The first entry of [items] named [name] is [item]. *)
Definition first_named {Item : Type} (get_pretty_name : Item -> string)
    (name : string) (items : list Item) (item : Item) : Prop :=
  exists before after : list Item,
    items = (before ++ item :: after)%list /\
    get_pretty_name item = name /\
    Forall (fun other => get_pretty_name other <> name) before.

(** What a lookup owes its caller: the first entry of that name, or an
    error whose message holds the name and the family's label. *)
Definition lookup_contract {Item : Type} (get_pretty_name : Item -> string)
    (items : list Item) (label : string)
    (lookup : string -> result Item) : Prop :=
  forall name : string,
    (forall item, first_named get_pretty_name name items item ->
                  lookup name = Return item) /\
    (Forall (fun other => get_pretty_name other <> name) items ->
     exists message,
       lookup name = Raise (ValueError message) /\
       Text.occurs_in name message /\ Text.occurs_in label message).

(** A naming of the classes by their class names, to run the lookups on. *)
Definition class_name (c : routine_class) : string :=
  match c with
  | LevenbergMarquardt => "LevenbergMarquardt"
  | GaussianFilter => "GaussianFilter"
  | MeanFilter => "MeanFilter"
  | MedianFilter => "MedianFilter"
  | GridSearch => "GridSearch"
  | MetaOptimizer => "MetaOptimizer"
  | NMSimplex => "NMSimplex"
  | Powell => "Powell"
  | SerialBasinHopping => "SerialBasinHopping"
  | SerialBFGS => "SerialBFGS"
  | SerialLM => "SerialLM"
  | SerialNMSimplex => "SerialNMSimplex"
  | SerialPowell => "SerialPowell"
  | EvenDistribution => "EvenDistribution"
  | RuntimeLoadBalancing => "RuntimeLoadBalancing"
  | PreferGPU => "PreferGPU"
  | PreferCPU => "PreferCPU"
  | PreferSpecificEnvironment => "PreferSpecificEnvironment"
  end.

End Factory.

(** ** Load balancing strategies *)

Module LoadBalance.

Local Open Scope string_scope.
Local Open Scope Z_scope.

(** Modelled from the spec: the device class of an environment;
    mot/load_balance_strategies.py and the environments it works on are
    not among the sources. *)
Inductive device_class : Type :=
  | Accelerator
  | GeneralPurpose.

(** Modelled from the spec: an environment has an identifier, a device
    class and, optionally, a measured relative speed. *)
Record Environment : Type := {
  env_id : string;
  env_class : device_class;
  env_speed : option N
}.

(** Modelled from the spec: the five variants of section 4.3. *)
Inductive LoadBalanceStrategy : Type :=
  | EvenDistribution
  | PreferGPU
  | PreferCPU
  | PreferSpecificEnvironment (target : string)
  | RuntimeLoadBalancing.

(** Modelled from the spec: the one error of [partition]. *)
Inductive error : Type :=
  | ConfigurationError.

(** The total of a list of counts. *)
Definition sum (counts : list Z) : Z := fold_right Z.add 0 counts.

(** Modelled from the spec: whether an environment is of the given device
    class. *)
Definition has_class (c : device_class) (e : Environment) : bool :=
  match c, env_class e with
  | Accelerator, Accelerator => true
  | GeneralPurpose, GeneralPurpose => true
  | _, _ => false
  end.

(** Modelled from the spec: hand [quotient] items to every chosen
    environment, one more to those among the first [remainder] chosen
    ones, none to the others; [k] counts the chosen environments passed. *)
Fixpoint spread (chosen : Environment -> bool) (quotient remainder k : Z)
    (envs : list Environment) : list Z :=
  match envs with
  | [] => []
  | e :: rest =>
      if chosen e then
        (quotient + (if k <? remainder then 1 else 0))
          :: spread chosen quotient remainder (k + 1) rest
      else 0 :: spread chosen quotient remainder k rest
  end.

(** Modelled from the spec: how many environments take part in a split. *)
Definition count_chosen (chosen : Environment -> bool)
    (envs : list Environment) : Z :=
  Z.of_nat (List.length (filter chosen envs)).

(** Modelled from the spec: split as evenly as possible among the chosen
    environments, the remainder of the integer division going to the first
    ones in list order. *)
Definition split_evenly (chosen : Environment -> bool) (total_items : Z)
    (envs : list Environment) : list Z :=
  let m := count_chosen chosen envs in
  spread chosen (total_items / m) (total_items mod m) 0 envs.

(** Modelled from the spec: EvenDistribution, over all environments. *)
Definition even_distribution (total_items : Z) (envs : list Environment)
    : list Z :=
  split_evenly (fun _ => true) total_items envs.

(** Modelled from the spec: PreferGPU and PreferCPU; everything goes to the
    environments of the preferred class, split evenly, and to those of the
    other class only when there is none of the preferred one. *)
Definition prefer (preferred fallback : device_class) (total_items : Z)
    (envs : list Environment) : list Z :=
  if existsb (has_class preferred) envs
  then split_evenly (has_class preferred) total_items envs
  else split_evenly (has_class fallback) total_items envs.

(** Modelled from the spec: PreferSpecificEnvironment; everything goes to
    the environment named [target], nothing to the others; no result when
    no environment bears that name. *)
Fixpoint assign_all_to (target : string) (total_items : Z)
    (envs : list Environment) : option (list Z) :=
  match envs with
  | [] => None
  | e :: rest =>
      if (env_id e =? target)%string
      then Some (total_items :: map (fun _ => 0) rest)
      else option_map (cons 0) (assign_all_to target total_items rest)
  end.

(** Modelled from the spec: the throughput estimates, when every
    environment has one. *)
Fixpoint estimates (envs : list Environment) : option (list Z) :=
  match envs with
  | [] => Some []
  | e :: rest =>
      match env_speed e, estimates rest with
      | Some w, Some ws => Some (Z.of_N w :: ws)
      | _, _ => None
      end
  end.

(** Modelled from the spec: shares proportional to the throughput,
    rounded down. *)
Definition proportional (total_items : Z) (ws : list Z) : list Z :=
  map (fun w => total_items * w / sum ws) ws.

(** Modelled from the spec: the position of the fastest environment, the
    first one when several are as fast. *)
Fixpoint fastest (ws : list Z) : nat :=
  match ws with
  | [] => O
  | w :: rest =>
      if forallb (fun w' => w' <=? w) rest then O else S (fastest rest)
  end.

(** Modelled from the spec: give [extra] more items to the environment at
    position [i]. *)
Fixpoint add_at (i : nat) (extra : Z) (counts : list Z) : list Z :=
  match counts, i with
  | [], _ => []
  | c :: rest, O => (c + extra) :: rest
  | c :: rest, S i' => c :: add_at i' extra rest
  end.

(** Modelled from the spec: RuntimeLoadBalancing; proportional shares with
    the rounding remainder added to the fastest environment, and the even
    split when the estimates are missing or all zero. *)
Definition runtime_load_balancing (total_items : Z)
    (envs : list Environment) : list Z :=
  match estimates envs with
  | Some ws =>
      if 0 <? sum ws then
        let shares := proportional total_items ws in
        add_at (fastest ws) (total_items - sum shares) shares
      else even_distribution total_items envs
  | None => even_distribution total_items envs
  end.

(** Modelled from the spec: [partition(total_items, environments)], the
    mapping from environment to item count as the list of pairs in the
    order of [environments]; a configuration error on an empty list and on
    a missing target. *)
Definition partition (strategy : LoadBalanceStrategy) (total_items : Z)
    (environments : list Environment) : error + list (Environment * Z) :=
  match environments with
  | [] => inl ConfigurationError
  | _ :: _ =>
      match strategy with
      | EvenDistribution =>
          inr (combine environments
                       (even_distribution total_items environments))
      | PreferGPU =>
          inr (combine environments
                       (prefer Accelerator GeneralPurpose total_items
                               environments))
      | PreferCPU =>
          inr (combine environments
                       (prefer GeneralPurpose Accelerator total_items
                               environments))
      | PreferSpecificEnvironment target =>
          match assign_all_to target total_items environments with
          | Some counts => inr (combine environments counts)
          | None => inl ConfigurationError
          end
      | RuntimeLoadBalancing =>
          inr (combine environments
                       (runtime_load_balancing total_items environments))
      end
  end.

(** Modelled from the spec: the invariant of section 4.3 on a returned
    mapping; every environment of the list is given a count, in order. *)
Definition well_partitioned (total_items : Z)
    (environments : list Environment) (mapping : list (Environment * Z))
    : Prop :=
  map fst mapping = environments /\
  Forall (fun count => 0 <= count) (map snd mapping) /\
  sum (map snd mapping) = total_items /\
  (total_items = 0 -> Forall (fun count => count = 0) (map snd mapping)).

(** Modelled from the spec: whether an environment bears the name
    [target]. *)
Definition named (target : string) (e : Environment) : bool :=
  (env_id e =? target)%string.

Definition nonneg (counts : list Z) : Prop := Forall (fun c => 0 <= c) counts.

Definition all_zero (counts : list Z) : Prop := Forall (fun c => c = 0) counts.

(** What the invariant asks of the list of counts handed to [combine]. *)
Definition good_counts (total_items : Z) (envs : list Environment)
    (counts : list Z) : Prop :=
  List.length counts = List.length envs /\
  nonneg counts /\
  sum counts = total_items /\
  (total_items = 0 -> all_zero counts).

(** Two environments to run the strategies on. *)
Definition cpu0 : Environment :=
  {| env_id := "cpu0"; env_class := GeneralPurpose; env_speed := Some 1%N |}.

Definition gpu0 : Environment :=
  {| env_id := "gpu0"; env_class := Accelerator; env_speed := Some 3%N |}.

End LoadBalance.

(** ** Properties of the kernel arithmetic *)

Module KernelFacts.

Import Kernels.
Local Open Scope R_scope.

Lemma cl_min_Rmin (x y : R) : CL.min x y = Rmin x y.
Proof.
  unfold CL.min, Rmin.
  destruct (Rlt_dec y x) as [Hlt | Hge]; destruct (Rle_dec x y) as [Hle | Hnle];
    try reflexivity; lra.
Qed.

Lemma uint_small (z : Z) : (0 <= z < 2 ^ 32)%Z -> CL.uint z = z.
Proof. intros Hz. unfold CL.uint, CL.UINT_MODULUS. now apply Z.mod_small. Qed.

Lemma update_no_wrap (v : R) (a j : Z) :
  (0 <= a <= j)%Z -> (a + 1 < 2 ^ 32)%Z -> (j - a + 1 < 2 ^ 32)%Z ->
  dmriproposal_default_parameter_update v a j = spec_default_update v a j.
Proof.
  intros Haj Ha Hj.
  unfold dmriproposal_default_parameter_update, spec_default_update.
  unfold CL.uint_add, CL.uint_sub, CL.convert_model_float.
  rewrite cl_min_Rmin.
  rewrite (uint_small (j - a)) by lia.
  rewrite (uint_small (a + 1)) by lia.
  rewrite (uint_small (j - a + 1)) by lia.
  now rewrite !plus_IZR, minus_IZR.
Qed.

Lemma update_zero_counters (v : R) :
  dmriproposal_default_parameter_update v 0 0 = Rmin v 1e10.
Proof.
  rewrite update_no_wrap by (cbv; intuition congruence).
  unfold spec_default_update.
  replace ((0 + 1) / (0 - 0 + 1)) with 1 by lra.
  now rewrite sqrt_1, Rmult_1_r.
Qed.

Lemma sqrt_10_bounds : 3 < sqrt 10 < 4.
Proof.
  split.
  - replace 3 with (sqrt (3 * 3)) by (apply sqrt_square; lra).
    apply sqrt_lt_1_alt; lra.
  - replace 4 with (sqrt (4 * 4)) by (apply sqrt_square; lra).
    apply sqrt_lt_1_alt; lra.
Qed.

Lemma update_9_9 : dmriproposal_default_parameter_update 1 9 9 = sqrt 10.
Proof.
  rewrite update_no_wrap by (cbv; intuition congruence).
  unfold spec_default_update.
  replace ((IZR 9 + 1) / (IZR 9 - IZR 9 + 1)) with 10 by lra.
  rewrite Rmult_1_l. apply Rmin_left.
  pose proof sqrt_10_bounds. lra.
Qed.

(** With [acceptance_counter = 9] and [jump_counter = 0] the unsigned
    difference [0 - 9] is [2^32 - 9]. *)
Lemma update_9_0 :
  dmriproposal_default_parameter_update 1 9 0 = sqrt (10 / 4294967288).
Proof.
  unfold dmriproposal_default_parameter_update.
  unfold CL.uint_add, CL.uint_sub, CL.convert_model_float.
  replace (CL.uint (9 + 1)) with 10%Z by reflexivity.
  replace (CL.uint (CL.uint (0 - 9) + 1)) with 4294967288%Z by reflexivity.
  rewrite cl_min_Rmin, Rmult_1_l. apply Rmin_left.
  apply Rle_trans with (sqrt 1).
  - apply sqrt_le_1_alt. lra.
  - rewrite sqrt_1. lra.
Qed.

Lemma update_9_0_bounds :
  0 < dmriproposal_default_parameter_update 1 9 0 < 1.
Proof.
  rewrite update_9_0. split.
  - apply sqrt_lt_R0. lra.
  - apply Rlt_le_trans with (sqrt 1).
    + apply sqrt_lt_1_alt. lra.
    + rewrite sqrt_1. lra.
Qed.

(** When [acceptance_counter + 1] wraps to zero the kernel returns zero,
    whatever the unwrapped formula says. *)
Lemma update_wraps_at_uint_max :
  dmriproposal_default_parameter_update 1 4294967295 4294967295 = 0 /\
  spec_default_update 1 4294967295 4294967295 = 65536.
Proof.
  split.
  - unfold dmriproposal_default_parameter_update.
    unfold CL.uint_add, CL.uint_sub, CL.convert_model_float.
    replace (CL.uint (4294967295 + 1)) with 0%Z by reflexivity.
    replace (CL.uint (CL.uint (4294967295 - 4294967295) + 1)) with 1%Z
      by reflexivity.
    rewrite cl_min_Rmin.
    replace (0 / 1) with 0 by lra.
    rewrite sqrt_0, Rmult_0_r. apply Rmin_left. lra.
  - unfold spec_default_update.
    replace ((IZR 4294967295 + 1) / (IZR 4294967295 - IZR 4294967295 + 1))
      with (65536 * 65536) by lra.
    rewrite sqrt_square by lra.
    rewrite Rmult_1_l. apply Rmin_left. lra.
Qed.

Lemma log_pdf_matches_spec (x mu std : R) :
  dmriproposal_gaussianProposalLogPDF x mu std = spec_gaussian_log_pdf x mu std.
Proof.
  unfold dmriproposal_gaussianProposalLogPDF, spec_gaussian_log_pdf.
  unfold CL.log, CL.M_2_SQRTPI, CL.pown.
  replace (2 / sqrt PI / std) with (2 / (std * sqrt PI)).
  - replace (powerRZ ((x - mu) / std) 2) with (((x - mu) / std) ^ 2).
    + lra.
    + unfold powerRZ. now replace (Pos.to_nat 2) with 2%nat by reflexivity.
  - unfold Rdiv. rewrite Rinv_mult. ring.
Qed.

(** C1 (amended). For every real [v] and all counters with
    [0 <= a <= j] whose sums [a + 1] and [j - a + 1] fit in 32 bits, the
    default update rule computes
    [min (v * sqrt ((a + 1) / (j - a + 1))) 1e10].  With both counters
    zero it returns [min v 1e10], which is [v] when [v <= 1e10]. *)
Theorem default_update_rule (v : R) (a j : Z) :
  (0 <= a <= j)%Z -> (a + 1 < 2 ^ 32)%Z -> (j - a + 1 < 2 ^ 32)%Z ->
  dmriproposal_default_parameter_update v a j =
    Rmin (v * sqrt ((IZR a + 1) / (IZR j - IZR a + 1))) 1e10 /\
  dmriproposal_default_parameter_update v 0 0 = Rmin v 1e10 /\
  (v <= 1e10 -> dmriproposal_default_parameter_update v 0 0 = v).
Proof.
  intros Haj Ha Hj. split; [| split].
  - now apply update_no_wrap.
  - apply update_zero_counters.
  - intros Hv. rewrite update_zero_counters. now apply Rmin_left.
Qed.

Lemma default_update_rule_witness :
  ((0 <= 3 <= 12)%Z /\ (3 + 1 < 2 ^ 32)%Z /\ (12 - 3 + 1 < 2 ^ 32)%Z /\
   2 <= 1e10) /\
  dmriproposal_default_parameter_update 2 3 12 =
    Rmin (2 * sqrt ((IZR 3 + 1) / (IZR 12 - IZR 3 + 1))) 1e10 /\
  dmriproposal_default_parameter_update 2 0 0 = 2.
Proof.
  assert (H1 : (0 <= 3 <= 12)%Z) by lia.
  assert (H2 : (3 + 1 < 2 ^ 32)%Z) by reflexivity.
  assert (H3 : (12 - 3 + 1 < 2 ^ 32)%Z) by reflexivity.
  assert (H4 : 2 <= 1e10) by lra.
  destruct (default_update_rule 2 3 12 H1 H2 H3) as [Hrule [_ Hid]].
  repeat split; try assumption; try apply H1.
  now apply Hid.
Defined.

(** Above the bound the rule with both counters zero is not the
    identity: it clamps. *)
Lemma default_update_clamps_above_bound :
  dmriproposal_default_parameter_update 2e10 0 0 <> 2e10.
Proof.
  rewrite update_zero_counters, Rmin_right by lra. lra.
Qed.

(** C2 (amended). [update(1.0, 9, 9)] is [sqrt 10], between 3 and 4;
    [update(1.0, 9, 0)], where the unsigned difference wraps to
    [2^32 - 9], is [sqrt (10 / 4294967288)]: positive, below [1.0] and so
    below the bound [1e10]. *)
Theorem default_update_boundary_values :
  dmriproposal_default_parameter_update 1 9 9 = sqrt 10 /\
  3 < dmriproposal_default_parameter_update 1 9 9 < 4 /\
  dmriproposal_default_parameter_update 1 9 0 = sqrt (10 / 4294967288) /\
  0 < dmriproposal_default_parameter_update 1 9 0 < 1 /\
  dmriproposal_default_parameter_update 1 9 0 <= 1e10.
Proof.
  pose proof update_9_0_bounds as Hb.
  repeat split; try apply Hb.
  - apply update_9_9.
  - rewrite update_9_9. apply sqrt_10_bounds.
  - rewrite update_9_9. apply sqrt_10_bounds.
  - apply update_9_0.
  - lra.
Qed.

(** The boundary evaluations of the specification do not hold of the
    kernel. *)
Lemma default_update_boundary_values_differ :
  ~ (dmriproposal_default_parameter_update 1 9 9 = 1 /\
     dmriproposal_default_parameter_update 1 9 0 <= 1e10 /\
     1 <= dmriproposal_default_parameter_update 1 9 0).
Proof.
  intros [H99 [_ H90]].
  pose proof update_9_0_bounds. lra.
Qed.

Lemma default_update_9_9_is_not_1 :
  dmriproposal_default_parameter_update 1 9 9 <> 1.
Proof.
  rewrite update_9_9. pose proof sqrt_10_bounds. lra.
Qed.

(** C3. The log-density kernel computes
    [log (2 / (std * sqrt pi)) - 0.5 * ((x - mu) / std)^2] for every [x],
    [mu] and [std]; at [x = mu] with [std = 2] this is
    [log (2 / (2 * sqrt pi))]. *)
Theorem gaussian_log_pdf_formula :
  (forall x mu std : R,
     dmriproposal_gaussianProposalLogPDF x mu std =
       ln (2 / (std * sqrt PI)) - 0.5 * ((x - mu) / std) ^ 2) /\
  (forall mu : R,
     dmriproposal_gaussianProposalLogPDF mu mu 2 = ln (2 / (2 * sqrt PI))).
Proof.
  split.
  - intros x mu std. apply log_pdf_matches_spec.
  - intros mu. rewrite log_pdf_matches_spec. unfold spec_gaussian_log_pdf.
    replace ((mu - mu) / 2) with 0 by lra.
    simpl. lra.
Qed.

End KernelFacts.

(** ** Properties of the proposal classes *)

Module ProposalFacts.

Import Py Proposals Text.
Local Open Scope string_scope.

(** Prove [include_guarded src guard] for a literal fragment by reading
    off its lines. *)
Ltac read_guard :=
  split;
  [ discriminate
  | match goal with
    | |- exists _, nonblank_lines ?src = _ =>
        exists (removelast (skipn 2 (nonblank_lines src)));
        vm_compute; reflexivity
    end ].


Lemma update_source_guarded :
  include_guarded default_parameter_update_source
                  "DMRIPROPOSAL_DEFAULT_PARAMETER_UPDATE".
Proof. read_guard. Qed.






(** A guard symbol is determined by the fragment. *)
Lemma include_guard_unique (src g1 g2 : string) :
  include_guarded src g1 -> include_guarded src g2 -> g1 = g2.
Proof.
  intros [_ [b1 H1]] [_ [b2 H2]].
  rewrite H1 in H2. injection H2 as Hhead _. exact Hhead.
Qed.

(** C6. A proposal class that does not define [is_symmetric] itself
    answers true, leaving the instance as it was; [GaussianProposal] is
    such a class. *)
Theorem is_symmetric_default
    (Self : Type) (cls : class_dict Self) (self : Self) :
  own_is_symmetric cls = None ->
  is_symmetric cls self = (true, self) /\
  (forall g : GaussianProposal,
     is_symmetric GaussianProposal_class g = (true, g)).
Proof.
  intros Hown. split.
  - unfold is_symmetric. rewrite Hown. reflexivity.
  - intros g. reflexivity.
Qed.

Lemma is_symmetric_default_witness :
  own_is_symmetric GaussianProposal_class = None /\
  is_symmetric GaussianProposal_class (GaussianProposal_init None None) =
    (true, GaussianProposal_init None None).
Proof.
  split.
  - reflexivity.
  - apply (is_symmetric_default GaussianProposal GaussianProposal_class
             (GaussianProposal_init None None)).
    reflexivity.
Defined.





(** A text that only declares a function defines none, and a body left
    open is no definition. *)
Lemma declaration_is_no_definition :
  function_definitions "model_float f(const model_float x);" = Some [] /\
  function_definitions "model_float f(const model_float x){ return x;" = None /\
  function_definitions "model_float f(const model_float x){ return x; }"
    = Some ["f"].
Proof. repeat split. Qed.


(** C8. [GaussianProposal(std=s, adaptable=a).get_parameters()] is a list
    of one [ProposalParameter] with default value [s] and flag [a]; left
    out, [std] is 1.0 and [adaptable] is true; two calls in a row on any
    instance return the same list and leave the instance as it was. *)
Theorem gaussian_get_parameters (s : R) (a : bool) :
  fst (get_parameters GaussianProposal_class
         (GaussianProposal_init (Some s) (Some a))) =
    Some [{| default_value := s; adaptable := a |}] /\
  GaussianProposal_init None None =
    GaussianProposal_init (Some 1%R) (Some true) /\
  GaussianProposal_init (Some s) None =
    GaussianProposal_init (Some s) (Some true) /\
  GaussianProposal_init None (Some a) =
    GaussianProposal_init (Some 1%R) (Some a) /\
  (forall g : GaussianProposal,
     twice (get_parameters GaussianProposal_class) g =
       ((Some (_parameters g), Some (_parameters g)), g)).
Proof.
  split; [reflexivity |]. split; [reflexivity |]. split; [reflexivity |].
  split; [reflexivity |]. intros g. reflexivity.
Qed.

(** C9. Two calls in a row of [get_proposal_function] on a proposal
    instance return the same source and leave the instance as it was: on
    every [GaussianProposal] the literal kernel source, on an instance of
    the base class [None]. *)
Theorem get_proposal_function_twice :
  (forall g : GaussianProposal,
     twice (get_proposal_function GaussianProposal_class) g =
       ((Some gaussian_proposal_source, Some gaussian_proposal_source), g)) /\
  (forall o : unit,
     twice (get_proposal_function AbstractParameterProposal_class) o =
       ((None, None), o)).
Proof.
  split; intros x; reflexivity.
Qed.

(** C10. Any two [ProposalParameter] instances, whatever their default
    value and [adaptable] flag, return the same update-function source,
    guarded by the same symbol, and the same name
    [dmriproposal_default_parameter_update]. *)
Theorem parameter_update_function_shared (p q : ProposalParameter) :
  fst (get_parameter_update_function p) =
    fst (get_parameter_update_function q) /\
  fst (get_parameter_update_function_name p) =
    "dmriproposal_default_parameter_update" /\
  fst (get_parameter_update_function_name q) =
    "dmriproposal_default_parameter_update" /\
  include_guarded (fst (get_parameter_update_function p))
                  "DMRIPROPOSAL_DEFAULT_PARAMETER_UPDATE" /\
  include_guarded (fst (get_parameter_update_function q))
                  "DMRIPROPOSAL_DEFAULT_PARAMETER_UPDATE" /\
  snd (get_parameter_update_function p) = p /\
  snd (get_parameter_update_function_name p) = p.
Proof.
  split; [reflexivity |]. split; [reflexivity |]. split; [reflexivity |].
  split; [apply update_source_guarded |].
  split; [apply update_source_guarded |].
  split; reflexivity.
Qed.

End ProposalFacts.

(** ** Properties of the registry lookup *)

Module FactoryFacts.

Import Factory.
Local Open Scope string_scope.

Lemma append_associative (a b c : string) : (a ++ b) ++ c = a ++ (b ++ c).
Proof.
  induction a as [| ch a IH]; simpl.
  - reflexivity.
  - now rewrite IH.
Qed.

Section GetItemFacts.

Context {Item : Type} (get_pretty_name : Item -> string).

Lemma get_item_first_named (name : string) (items : list Item)
    (factory_type : string) (item : Item) :
  first_named get_pretty_name name items item ->
  _get_item get_pretty_name name items factory_type = Return item.
Proof.
  intros [before [after [Hitems [Hname Hbefore]]]]. subst items.
  induction Hbefore as [| other before' Hother _ IH]; simpl.
  - rewrite Hname, String.eqb_refl. reflexivity.
  - destruct (String.eqb_spec (get_pretty_name other) name) as [Heq | _].
    + contradiction.
    + exact IH.
Qed.

Lemma get_item_absent (name : string) (items : list Item)
    (factory_type : string) :
  Forall (fun other => get_pretty_name other <> name) items ->
  _get_item get_pretty_name name items factory_type =
    Raise (ValueError ("The item with the name " ++ name ++
                       " could not be found in the " ++ factory_type ++
                       " factory.")).
Proof.
  induction 1 as [| other rest Hother _ IH]; simpl.
  - reflexivity.
  - destruct (String.eqb_spec (get_pretty_name other) name) as [Heq | _].
    + contradiction.
    + exact IH.
Qed.

(** Every list either has a first entry of the given name or none at all. *)
Lemma first_named_or_absent (name : string) (items : list Item) :
  (exists item, first_named get_pretty_name name items item) \/
  Forall (fun other => get_pretty_name other <> name) items.
Proof.
  induction items as [| head rest IH].
  - right. constructor.
  - destruct (String.eqb_spec (get_pretty_name head) name) as [Heq | Hne].
    + left. exists head, [], rest. split; [reflexivity |]. split; auto.
    + destruct IH as [[item [before [after [Hrest [Hname Hbefore]]]]] | Hnone].
      * left. exists item, (head :: before), after. subst rest.
        split; [reflexivity |]. split; auto.
      * right. now constructor.
Qed.

(** What [_get_item] returns is an entry of the list, under that name. *)
Lemma get_item_returns_first (name : string) (items : list Item)
    (factory_type : string) (item : Item) :
  _get_item get_pretty_name name items factory_type = Return item ->
  first_named get_pretty_name name items item.
Proof.
  intros Hret.
  destruct (first_named_or_absent name items) as [[found Hfound] | Hnone].
  - rewrite (get_item_first_named _ _ factory_type _ Hfound) in Hret.
    now injection Hret as <-.
  - rewrite (get_item_absent _ _ factory_type Hnone) in Hret. discriminate.
Qed.

Lemma get_item_contract (items : list Item) (label : string) :
  lookup_contract get_pretty_name items label
    (fun name => _get_item get_pretty_name name items label).
Proof.
  intros name. split.
  - intros item. apply get_item_first_named.
  - intros Hnone. eexists. split; [| split].
    + now apply get_item_absent.
    + exists "The item with the name ",
             (" could not be found in the " ++ label ++ " factory.").
      reflexivity.
    + exists ("The item with the name " ++ name ++
              " could not be found in the "), " factory.".
      now rewrite !append_associative.
Qed.

End GetItemFacts.

(** C4. For each family the lookup returns the first class of the list
    whose pretty name is the requested one, the class itself; when no
    entry bears the name it raises a [ValueError] whose message holds the
    name and the family's label.  When no optimizer is named
    [NonexistentAlgorithm], looking that name up among the optimizers
    raises with a message naming it and [optimizers]. *)
Theorem factory_lookup (get_pretty_name : routine_class -> string) :
  lookup_contract get_pretty_name optimizers "optimizers"
                  (get_optimizer_by_name get_pretty_name) /\
  lookup_contract get_pretty_name filters "smoothers"
                  (get_filter_by_name get_pretty_name) /\
  lookup_contract get_pretty_name lb "load balancers"
                  (get_load_balance_strategy_by_name get_pretty_name) /\
  (Forall (fun c => get_pretty_name c <> "NonexistentAlgorithm") optimizers ->
   get_optimizer_by_name get_pretty_name "NonexistentAlgorithm" =
     Raise (ValueError "The item with the name NonexistentAlgorithm could not be found in the optimizers factory.")).
Proof.
  split; [apply get_item_contract |].
  split; [apply get_item_contract |].
  split; [apply get_item_contract |].
  intros Hnone. unfold get_optimizer_by_name.
  now rewrite get_item_absent.
Qed.

Lemma factory_lookup_witness :
  Forall (fun c => class_name c <> "NonexistentAlgorithm") optimizers /\
  get_optimizer_by_name class_name "NonexistentAlgorithm" =
    Raise (ValueError "The item with the name NonexistentAlgorithm could not be found in the optimizers factory.") /\
  first_named class_name "Powell" optimizers Powell /\
  get_optimizer_by_name class_name "Powell" = Return Powell.
Proof.
  assert (Hnone : Forall (fun c => class_name c <> "NonexistentAlgorithm")
                         optimizers)
    by (repeat constructor; discriminate).
  assert (Hfirst : first_named class_name "Powell" optimizers Powell).
  { exists [LevenbergMarquardt; GridSearch],
           [NMSimplex; MetaOptimizer; SerialBasinHopping; SerialBFGS;
            SerialLM; SerialNMSimplex; SerialPowell].
    split; [reflexivity |]. split; [reflexivity |].
    repeat constructor; discriminate. }
  destruct (factory_lookup class_name) as [Hopt [_ [_ Hmissing]]].
  split; [exact Hnone |].
  split; [exact (Hmissing Hnone) |].
  split; [exact Hfirst |].
  exact (proj1 (Hopt "Powell") Powell Hfirst).
Defined.

End FactoryFacts.

(** ** Properties of the load balancing strategies *)

Module LoadBalanceFacts.

Import LoadBalance.
Local Open Scope Z_scope.

Lemma combine_fst (envs : list Environment) :
  forall counts : list Z,
    List.length counts = List.length envs ->
    map fst (combine envs counts) = envs.
Proof.
  induction envs as [| e envs IH]; intros [| c counts] Hlen;
    simpl in *; try discriminate; try reflexivity.
  f_equal. apply IH. now injection Hlen.
Qed.

Lemma combine_snd (envs : list Environment) :
  forall counts : list Z,
    List.length counts = List.length envs ->
    map snd (combine envs counts) = counts.
Proof.
  induction envs as [| e envs IH]; intros [| c counts] Hlen;
    simpl in *; try discriminate; try reflexivity.
  f_equal. apply IH. now injection Hlen.
Qed.

Lemma good_counts_partitioned (total_items : Z) (envs : list Environment)
    (counts : list Z) :
  good_counts total_items envs counts ->
  well_partitioned total_items envs (combine envs counts).
Proof.
  intros [Hlen [Hnn [Hsum Hzero]]]. unfold well_partitioned.
  rewrite combine_fst, combine_snd by assumption. auto.
Qed.

Lemma sum_cons (c : Z) (counts : list Z) : sum (c :: counts) = c + sum counts.
Proof. reflexivity. Qed.

(** *** Even splits *)

Lemma count_chosen_nonneg (chosen : Environment -> bool)
    (envs : list Environment) : 0 <= count_chosen chosen envs.
Proof. unfold count_chosen. lia. Qed.

Lemma count_chosen_cons (chosen : Environment -> bool) (e : Environment)
    (envs : list Environment) :
  count_chosen chosen (e :: envs) =
    (if chosen e then 1 else 0) + count_chosen chosen envs.
Proof.
  unfold count_chosen. simpl. destruct (chosen e); simpl List.length; lia.
Qed.

Lemma count_chosen_pos (chosen : Environment -> bool)
    (envs : list Environment) :
  existsb chosen envs = true -> 0 < count_chosen chosen envs.
Proof.
  induction envs as [| e envs IH]; simpl; [discriminate |].
  rewrite count_chosen_cons. pose proof (count_chosen_nonneg chosen envs).
  destruct (chosen e); cbn [orb]; intros Hrest; [lia |].
  specialize (IH Hrest). lia.
Qed.

Lemma spread_length (chosen : Environment -> bool) (q r : Z)
    (envs : list Environment) :
  forall k, List.length (spread chosen q r k envs) = List.length envs.
Proof.
  induction envs as [| e envs IH]; intros k; simpl; [reflexivity |].
  destruct (chosen e); simpl; now rewrite IH.
Qed.

Lemma spread_sum (chosen : Environment -> bool) (q r : Z)
    (envs : list Environment) :
  forall k, 0 <= k ->
    sum (spread chosen q r k envs) =
      q * count_chosen chosen envs +
      Z.max 0 (Z.min r (k + count_chosen chosen envs) - k).
Proof.
  induction envs as [| e envs IH]; intros k Hk.
  - unfold count_chosen. simpl. lia.
  - rewrite count_chosen_cons.
    pose proof (count_chosen_nonneg chosen envs) as Hc.
    cbn [spread]. destruct (chosen e); rewrite sum_cons, IH by lia.
    + destruct (Z.ltb_spec k r); lia.
    + lia.
Qed.

Lemma spread_nonneg (chosen : Environment -> bool) (q r : Z)
    (envs : list Environment) :
  0 <= q -> forall k, nonneg (spread chosen q r k envs).
Proof.
  intros Hq. induction envs as [| e envs IH]; intros k; simpl.
  - constructor.
  - destruct (chosen e); constructor; try apply IH.
    + destruct (k <? r); lia.
    + lia.
Qed.

Lemma spread_all_zero (chosen : Environment -> bool)
    (envs : list Environment) :
  forall k, 0 <= k -> all_zero (spread chosen 0 0 k envs).
Proof.
  induction envs as [| e envs IH]; intros k Hk; simpl.
  - constructor.
  - destruct (chosen e); constructor; try (apply IH; lia).
    + destruct (Z.ltb_spec k 0); lia.
    + reflexivity.
Qed.

Lemma split_evenly_good (chosen : Environment -> bool) (total_items : Z)
    (envs : list Environment) :
  0 <= total_items -> 0 < count_chosen chosen envs ->
  good_counts total_items envs (split_evenly chosen total_items envs).
Proof.
  intros Htotal Hm. unfold split_evenly.
  set (m := count_chosen chosen envs) in *.
  split; [apply spread_length |].
  split; [apply spread_nonneg; apply Z.div_pos; lia |].
  split.
  - rewrite spread_sum by lia. fold m.
    pose proof (Z.mod_pos_bound total_items m Hm) as Hr.
    pose proof (Z.div_mod total_items m ltac:(lia)) as Hdm.
    lia.
  - intros ->. rewrite Z.div_0_l, Z.mod_0_l by lia.
    apply spread_all_zero. lia.
Qed.

Lemma count_all (envs : list Environment) :
  count_chosen (fun _ => true) envs = Z.of_nat (List.length envs).
Proof.
  unfold count_chosen. induction envs as [| e envs IH]; simpl; [reflexivity |].
  simpl in IH. lia.
Qed.

Lemma even_distribution_good (total_items : Z) (envs : list Environment) :
  0 <= total_items -> envs <> [] ->
  good_counts total_items envs (even_distribution total_items envs).
Proof.
  intros Htotal Hne. apply split_evenly_good; [assumption |].
  rewrite count_all. destruct envs; [contradiction | simpl; lia].
Qed.

(** *** Preferring a device class *)

Lemma fallback_covers (preferred fallback : device_class)
    (envs : list Environment) :
  preferred <> fallback -> envs <> [] ->
  existsb (has_class preferred) envs = false ->
  existsb (has_class fallback) envs = true.
Proof.
  intros Hdiff Hne Hnone. destruct envs as [| e envs]; [contradiction |].
  simpl in *. apply orb_false_elim in Hnone as [He _].
  unfold has_class in *.
  destruct preferred, fallback, (env_class e);
    try discriminate; try contradiction; reflexivity.
Qed.

Lemma prefer_good (preferred fallback : device_class) (total_items : Z)
    (envs : list Environment) :
  preferred <> fallback -> 0 <= total_items -> envs <> [] ->
  good_counts total_items envs (prefer preferred fallback total_items envs).
Proof.
  intros Hdiff Htotal Hne. unfold prefer.
  destruct (existsb (has_class preferred) envs) eqn:Hany.
  - apply split_evenly_good; [assumption |]. now apply count_chosen_pos.
  - apply split_evenly_good; [assumption |]. apply count_chosen_pos.
    now apply fallback_covers with preferred.
Qed.

(** *** One named environment *)

Lemma zeros_good (envs : list Environment) :
  List.length (map (fun _ : Environment => 0) envs) = List.length envs /\
  all_zero (map (fun _ : Environment => 0) envs) /\
  sum (map (fun _ : Environment => 0) envs) = 0.
Proof.
  induction envs as [| e envs [Hlen [Hzero Hsum]]]; simpl.
  - repeat split; constructor.
  - split; [now rewrite Hlen |]. split; [now constructor | assumption].
Qed.

Lemma all_zero_nonneg (counts : list Z) : all_zero counts -> nonneg counts.
Proof.
  unfold all_zero, nonneg. intros H.
  eapply Forall_impl; [| exact H]. simpl. lia.
Qed.

Lemma assign_all_to_good (target : string) (total_items : Z)
    (envs : list Environment) :
  0 <= total_items ->
  existsb (named target) envs = true ->
  exists counts,
    assign_all_to target total_items envs = Some counts /\
    good_counts total_items envs counts.
Proof.
  intros Htotal. induction envs as [| e envs IH]; simpl; [discriminate |].
  unfold named at 1. destruct (env_id e =? target)%string; simpl.
  - intros _. destruct (zeros_good envs) as [Hlen [Hzero Hsum]].
    eexists. split; [reflexivity |].
    split; [simpl; now rewrite Hlen |].
    split; [constructor; [assumption | now apply all_zero_nonneg] |].
    split; [simpl; lia |].
    intros ->. now constructor.
  - intros Hrest. destruct (IH Hrest) as [counts [Hsome [Hlen [Hnn [Hsum Hz]]]]].
    rewrite Hsome. simpl. eexists. split; [reflexivity |].
    split; [simpl; now rewrite Hlen |].
    split; [constructor; [lia | assumption] |].
    split; [simpl; lia |].
    intros H0. constructor; [reflexivity | now apply Hz].
Qed.

Lemma assign_all_to_absent (target : string) (total_items : Z)
    (envs : list Environment) :
  existsb (named target) envs = false ->
  assign_all_to target total_items envs = None.
Proof.
  induction envs as [| e envs IH]; simpl; [reflexivity |].
  unfold named at 1. destruct (env_id e =? target)%string; simpl.
  - discriminate.
  - intros Hrest. now rewrite IH.
Qed.

(** *** Shares proportional to the throughput *)

Lemma estimates_facts (envs : list Environment) :
  forall ws, estimates envs = Some ws ->
    List.length ws = List.length envs /\ nonneg ws.
Proof.
  induction envs as [| e envs IH]; simpl; intros ws Hws.
  - injection Hws as <-. split; [reflexivity | constructor].
  - destruct (env_speed e) as [w |]; [| discriminate].
    destruct (estimates envs) as [ws' |]; [| discriminate].
    injection Hws as <-. destruct (IH ws' eq_refl) as [Hlen Hnn].
    split; [simpl; now rewrite Hlen |].
    constructor; [lia | assumption].
Qed.

(** Shares rounded down never add up to more than the whole. *)
Lemma shares_below (total_items d : Z) (ws : list Z) :
  0 < d ->
  d * sum (map (fun w => total_items * w / d) ws) <= total_items * sum ws.
Proof.
  intros Hd. induction ws as [| w ws IH]; simpl; [lia |].
  pose proof (Z.mul_div_le (total_items * w) d Hd). lia.
Qed.

Lemma shares_nonneg (total_items d : Z) (ws : list Z) :
  0 <= total_items -> 0 < d -> nonneg ws ->
  nonneg (map (fun w => total_items * w / d) ws).
Proof.
  intros Htotal Hd Hws. induction Hws as [| w ws Hw _ IH]; simpl.
  - constructor.
  - constructor; [| exact IH]. apply Z.div_pos; nia.
Qed.

Lemma shares_all_zero (d : Z) (ws : list Z) :
  all_zero (map (fun w => 0 * w / d) ws).
Proof.
  induction ws as [| w ws IH]; cbn [map]; constructor; [| exact IH].
  rewrite Z.mul_0_l. apply Zdiv_0_l.
Qed.

Lemma fastest_in_range (ws : list Z) :
  ws <> [] -> (fastest ws < List.length ws)%nat.
Proof.
  induction ws as [| w ws IH]; [contradiction |]. intros _. simpl.
  destruct (forallb (fun w' => w' <=? w) ws) eqn:Hall; [lia |].
  assert (ws <> []) by (intros ->; discriminate).
  specialize (IH H). lia.
Qed.

Lemma add_at_length (counts : list Z) :
  forall i extra, List.length (add_at i extra counts) = List.length counts.
Proof.
  induction counts as [| c counts IH]; intros [| i] extra; simpl;
    try reflexivity.
  now rewrite IH.
Qed.

Lemma add_at_sum (counts : list Z) :
  forall i extra, (i < List.length counts)%nat ->
    sum (add_at i extra counts) = sum counts + extra.
Proof.
  induction counts as [| c counts IH]; intros [| i] extra Hi; simpl in *;
    try lia.
  rewrite IH by lia. lia.
Qed.

Lemma add_at_nonneg (counts : list Z) :
  forall i extra, 0 <= extra -> nonneg counts ->
    nonneg (add_at i extra counts).
Proof.
  induction counts as [| c counts IH]; intros [| i] extra Hextra Hnn;
    simpl; try assumption.
  - inversion Hnn; subst. constructor; [lia | assumption].
  - inversion Hnn; subst. constructor; [assumption | now apply IH].
Qed.

Lemma add_at_all_zero (counts : list Z) :
  forall i, all_zero counts -> all_zero (add_at i 0 counts).
Proof.
  induction counts as [| c counts IH]; intros [| i] Hz; simpl;
    try assumption.
  - inversion Hz; subst. constructor; [lia | assumption].
  - inversion Hz; subst. constructor; [reflexivity | now apply IH].
Qed.

Lemma all_zero_sum (counts : list Z) : all_zero counts -> sum counts = 0.
Proof.
  induction 1 as [| c counts Hc _ IH]; simpl; lia.
Qed.

Lemma runtime_load_balancing_good (total_items : Z)
    (envs : list Environment) :
  0 <= total_items -> envs <> [] ->
  good_counts total_items envs (runtime_load_balancing total_items envs).
Proof.
  intros Htotal Hne. unfold runtime_load_balancing.
  destruct (estimates envs) as [ws |] eqn:Hws;
    [| now apply even_distribution_good].
  destruct (Z.ltb_spec 0 (sum ws)) as [Hpos | _];
    [| now apply even_distribution_good].
  destruct (estimates_facts envs ws Hws) as [Hlen Hnn].
  assert (Hws_ne : ws <> []).
  { intros ->. destruct envs; [contradiction | discriminate]. }
  pose proof (fastest_in_range ws Hws_ne) as Hfast.
  unfold proportional.
  set (shares := map (fun w => total_items * w / sum ws) ws).
  assert (Hshares_len : List.length shares = List.length ws)
    by apply length_map.
  assert (Hbelow : sum shares <= total_items).
  { pose proof (shares_below total_items (sum ws) ws Hpos) as H.
    fold shares in H. nia. }
  split; [rewrite add_at_length; congruence |].
  split.
  { apply add_at_nonneg; [lia |]. now apply shares_nonneg. }
  split.
  { rewrite add_at_sum by lia. lia. }
  intros ->.
  assert (Hz : all_zero shares) by apply shares_all_zero.
  rewrite (all_zero_sum shares Hz). now apply add_at_all_zero.
Qed.

Lemma partition_returns (strategy : LoadBalanceStrategy)
    (total_items : Z) (environments : list Environment) :
  0 <= total_items ->
  environments <> [] ->
  (forall target, strategy = PreferSpecificEnvironment target ->
                  existsb (named target) environments = true) ->
  exists mapping,
    partition strategy total_items environments = inr mapping /\
    well_partitioned total_items environments mapping.
Proof.
  intros Htotal Hne Htarget.
  destruct environments as [| e envs]; [contradiction |].
  destruct strategy as [| | | target |]; cbn [partition].
  - eexists. split; [reflexivity |].
    apply good_counts_partitioned. now apply even_distribution_good.
  - eexists. split; [reflexivity |].
    apply good_counts_partitioned. apply prefer_good; auto. discriminate.
  - eexists. split; [reflexivity |].
    apply good_counts_partitioned. apply prefer_good; auto. discriminate.
  - destruct (assign_all_to_good target total_items (e :: envs) Htotal
                (Htarget target eq_refl)) as [counts [Hsome Hgood]].
    rewrite Hsome. eexists. split; [reflexivity |].
    now apply good_counts_partitioned.
  - eexists. split; [reflexivity |].
    apply good_counts_partitioned. now apply runtime_load_balancing_good.
Qed.

Lemma partition_absent_target (target : string) (total_items : Z)
    (environments : list Environment) :
  existsb (named target) environments = false ->
  partition (PreferSpecificEnvironment target) total_items environments
    = inl ConfigurationError.
Proof.
  intros Habsent. unfold partition.
  destruct environments as [| e envs]; [reflexivity |].
  now rewrite assign_all_to_absent.
Qed.

(** The one case in which [partition] is asked for a target that is not
    there. *)
Lemma target_present_or_absent (strategy : LoadBalanceStrategy)
    (environments : list Environment) :
  (forall target, strategy = PreferSpecificEnvironment target ->
                  existsb (named target) environments = true) \/
  (exists target, strategy = PreferSpecificEnvironment target /\
                  existsb (named target) environments = false).
Proof.
  destruct strategy as [| | | target |];
    try (left; intros t Ht; discriminate Ht).
  destruct (existsb (named target) environments) eqn:Hthere.
  - left. intros t Ht. injection Ht as <-. exact Hthere.
  - right. exists target. split; [reflexivity | exact Hthere].
Qed.

(** C5. For every [total_items >= 0] and every non-empty list of
    environments, the counts returned by any variant's [partition] are
    over exactly the given environments, non-negative, sum to
    [total_items], and are all zero when [total_items] is zero.
    [partition] does return counts in every case but the one the
    specification makes an error: PreferSpecificEnvironment with a
    target that is not in the list. *)
Theorem partition_invariant (strategy : LoadBalanceStrategy)
    (total_items : Z) (environments : list Environment) :
  0 <= total_items ->
  environments <> [] ->
  (forall mapping,
     partition strategy total_items environments = inr mapping ->
     well_partitioned total_items environments mapping) /\
  (partition strategy total_items environments = inl ConfigurationError <->
   exists target, strategy = PreferSpecificEnvironment target /\
                  existsb (named target) environments = false) /\
  ((forall target, strategy = PreferSpecificEnvironment target ->
                   existsb (named target) environments = true) ->
   exists mapping,
     partition strategy total_items environments = inr mapping /\
     well_partitioned total_items environments mapping).
Proof.
  intros Htotal Hne.
  destruct (target_present_or_absent strategy environments)
    as [Hthere | [target [-> Habsent]]].
  - destruct (partition_returns strategy total_items environments
                Htotal Hne Hthere) as [mapping [Hret Hgood]].
    split; [| split].
    + intros mapping' Hret'. rewrite Hret in Hret'.
      now injection Hret' as <-.
    + split.
      * intros Hfail. rewrite Hret in Hfail. discriminate.
      * intros [target [-> Habsent]].
        rewrite (Hthere target eq_refl) in Habsent. discriminate.
    + intros _. now exists mapping.
  - pose proof (partition_absent_target target total_items environments
                  Habsent) as Hfail.
    split; [| split].
    + intros mapping Hret. rewrite Hfail in Hret. discriminate.
    + split; [| intros _; exact Hfail].
      intros _. exists target. now split.
    + intros Hthere. rewrite (Hthere target eq_refl) in Habsent.
      discriminate.
Qed.

Lemma partition_invariant_witness :
  (0 <= 10 /\ [cpu0; gpu0] <> [] /\
   partition (PreferSpecificEnvironment "gpu0") 10 [cpu0; gpu0]
     = inr [(cpu0, 0); (gpu0, 10)]) /\
  well_partitioned 10 [cpu0; gpu0] [(cpu0, 0); (gpu0, 10)].
Proof.
  assert (H1 : 0 <= 10) by lia.
  assert (H2 : [cpu0; gpu0] <> []) by discriminate.
  assert (H3 : partition (PreferSpecificEnvironment "gpu0") 10 [cpu0; gpu0]
               = inr [(cpu0, 0); (gpu0, 10)]) by reflexivity.
  split; [auto |].
  exact (proj1 (partition_invariant (PreferSpecificEnvironment "gpu0") 10
                  [cpu0; gpu0] H1 H2) _ H3).
Defined.

Example prefer_specific_absent_target :
  partition (PreferSpecificEnvironment "gpu1") 10 [cpu0; gpu0]
    = inl ConfigurationError.
Proof. reflexivity. Qed.

Example even_distribution_10_over_3 :
  partition EvenDistribution 10 [cpu0; gpu0; cpu0]
    = inr [(cpu0, 4); (gpu0, 3); (cpu0, 3)].
Proof. reflexivity. Qed.

Example prefer_gpu_100 :
  partition PreferGPU 100 [cpu0; gpu0] = inr [(cpu0, 0); (gpu0, 100)].
Proof. reflexivity. Qed.

Example runtime_10 :
  partition RuntimeLoadBalancing 10 [cpu0; gpu0; gpu0]
    = inr [(cpu0, 1); (gpu0, 5); (gpu0, 4)].
Proof. reflexivity. Qed.

End LoadBalanceFacts.

(** ** Further properties of the kernel arithmetic *)

Module KernelExtras.

Import Kernels KernelFacts.
Local Open Scope R_scope.

(** The ratio under the square root, as the kernel computes it. *)
Lemma update_unfold (v : R) (a j : Z) :
  dmriproposal_default_parameter_update v a j =
    Rmin (v * sqrt (IZR (CL.uint_add a 1) /
                    IZR (CL.uint_add (CL.uint_sub j a) 1))) 1e10.
Proof.
  unfold dmriproposal_default_parameter_update, CL.convert_model_float.
  apply cl_min_Rmin.
Qed.

Lemma uint_negative (z : Z) :
  (- 2 ^ 32 <= z < 0)%Z -> CL.uint z = (z + 2 ^ 32)%Z.
Proof.
  intros Hz. unfold CL.uint, CL.UINT_MODULUS.
  replace z with (z + 2 ^ 32 + (-1) * 2 ^ 32)%Z at 1 by ring.
  rewrite Z_mod_plus_full. apply Z.mod_small. lia.
Qed.

Lemma sqrt_ge_1 (x : R) : 1 <= x -> 1 <= sqrt x.
Proof.
  intros Hx. rewrite <- sqrt_1. now apply sqrt_le_1_alt.
Qed.

Lemma sqrt_le_1 (x : R) : x <= 1 -> sqrt x <= 1.
Proof.
  intros Hx. rewrite <- sqrt_1. now apply sqrt_le_1_alt.
Qed.

(** The ratio of accepted to rejected jumps, each counted from one. *)
Lemma ratio_monotone (x x' y : R) :
  0 <= x -> x <= x' -> x' <= y ->
  (x + 1) / (y - x + 1) <= (x' + 1) / (y - x' + 1).
Proof.
  intros H0 Hx Hy. unfold Rdiv.
  apply Rmult_le_compat; try lra.
  - apply Rlt_le, Rinv_0_lt_compat. lra.
  - apply Rinv_le_contravar; lra.
Qed.

(** X1. A non-negative value stays within [0, 1e10] for all counters,
    wrapped or not, whose divisor is not zero. *)
Theorem default_update_range (v : R) (a j : Z) :
  0 <= v ->
  update_divisor a j <> 0%Z ->
  0 <= dmriproposal_default_parameter_update v a j <= 1e10.
Proof.
  intros Hv _. rewrite update_unfold. split.
  - apply Rmin_glb; [| lra].
    apply Rmult_le_pos; [assumption | apply sqrt_pos].
  - apply Rmin_r.
Qed.

Lemma default_update_range_witness :
  (0 <= 5 /\ update_divisor 9 0 <> 0%Z) /\
  0 <= dmriproposal_default_parameter_update 5 9 0 <= 1e10.
Proof.
  assert (H : 0 <= 5) by lra.
  assert (Hd : update_divisor 9 0 <> 0%Z) by discriminate.
  split; [auto | exact (default_update_range 5 9 0 H Hd)].
Defined.

(** X2. For counters whose divisor is not zero, a larger current value
    never gives a smaller new value. *)
Theorem default_update_monotone_in_value (v v' : R) (a j : Z) :
  v <= v' ->
  update_divisor a j <> 0%Z ->
  dmriproposal_default_parameter_update v a j <=
    dmriproposal_default_parameter_update v' a j.
Proof.
  intros Hv _. rewrite !update_unfold.
  apply Rle_min_compat_r.
  apply Rmult_le_compat_r; [apply sqrt_pos | assumption].
Qed.

Lemma default_update_monotone_in_value_witness :
  (1 <= 2 /\ update_divisor 3 12 <> 0%Z) /\
  dmriproposal_default_parameter_update 1 3 12 <=
    dmriproposal_default_parameter_update 2 3 12.
Proof.
  assert (H : 1 <= 2) by lra.
  assert (Hd : update_divisor 3 12 <> 0%Z) by discriminate.
  split; [auto | exact (default_update_monotone_in_value 1 2 3 12 H Hd)].
Defined.

(** X3. With the jump counter fixed, more accepted jumps never give a smaller
    new value. *)
Theorem default_update_monotone_in_acceptance (v : R) (a a' j : Z) :
  0 <= v ->
  (0 <= a <= a')%Z -> (a' <= j)%Z -> (j + 1 < 2 ^ 32)%Z ->
  dmriproposal_default_parameter_update v a j <=
    dmriproposal_default_parameter_update v a' j.
Proof.
  intros Hv Ha Ha' Hj.
  rewrite !update_no_wrap by lia. unfold spec_default_update.
  apply Rle_min_compat_r, Rmult_le_compat_l; [assumption |].
  apply sqrt_le_1_alt, ratio_monotone.
  - apply IZR_le. lia.
  - apply IZR_le. lia.
  - apply IZR_le. lia.
Qed.

Lemma default_update_monotone_in_acceptance_witness :
  (0 <= 2 /\ (0 <= 3 <= 7)%Z /\ (7 <= 12)%Z /\ (12 + 1 < 2 ^ 32)%Z) /\
  dmriproposal_default_parameter_update 2 3 12 <=
    dmriproposal_default_parameter_update 2 7 12.
Proof.
  assert (H1 : 0 <= 2) by lra.
  assert (H2 : (0 <= 3 <= 7)%Z) by lia.
  assert (H3 : (7 <= 12)%Z) by lia.
  assert (H4 : (12 + 1 < 2 ^ 32)%Z) by reflexivity.
  split; [auto |].
  exact (default_update_monotone_in_acceptance 2 3 7 12 H1 H2 H3 H4).
Defined.

(** X4. As many accepted as rejected jumps leave the value as it is, up to
    the bound. *)
Theorem default_update_balanced (v : R) (a : Z) :
  (0 <= a)%Z -> (2 * a < 2 ^ 32)%Z ->
  dmriproposal_default_parameter_update v a (2 * a) = Rmin v 1e10.
Proof.
  intros Ha Hj.
  rewrite update_no_wrap by lia. unfold spec_default_update.
  rewrite mult_IZR.
  replace ((IZR a + 1) / (2 * IZR a - IZR a + 1)) with 1.
  - now rewrite sqrt_1, Rmult_1_r.
  - assert (0 <= IZR a) by (apply IZR_le; lia). field. lra.
Qed.

Lemma default_update_balanced_witness :
  ((0 <= 6)%Z /\ (2 * 6 < 2 ^ 32)%Z) /\
  dmriproposal_default_parameter_update 3 6 (2 * 6) = Rmin 3 1e10.
Proof.
  assert (H1 : (0 <= 6)%Z) by lia.
  assert (H2 : (2 * 6 < 2 ^ 32)%Z) by reflexivity.
  split; [auto | exact (default_update_balanced 3 6 H1 H2)].
Defined.

(** X5. At least as many accepted as rejected jumps: a non-negative value
    does not shrink, unless the bound cuts it. *)
Theorem default_update_grows (v : R) (a j : Z) :
  0 <= v ->
  (0 <= a <= j)%Z -> (j <= 2 * a)%Z -> (a + 1 < 2 ^ 32)%Z ->
  Rmin v 1e10 <= dmriproposal_default_parameter_update v a j.
Proof.
  intros Hv Haj Hhalf Ha.
  rewrite update_no_wrap by lia. unfold spec_default_update.
  apply Rle_min_compat_r.
  rewrite <- (Rmult_1_r v) at 1.
  apply Rmult_le_compat_l; [assumption |].
  apply sqrt_ge_1.
  assert (Hx : 0 <= IZR a) by (apply IZR_le; lia).
  assert (Hy : IZR a <= IZR j) by (apply IZR_le; lia).
  assert (Hh : IZR j <= 2 * IZR a)
    by (rewrite <- mult_IZR; apply IZR_le; lia).
  apply Rmult_le_reg_r with (IZR j - IZR a + 1); [lra |].
  unfold Rdiv. rewrite Rmult_assoc, Rinv_l by lra. lra.
Qed.

Lemma default_update_grows_witness :
  (0 <= 2 /\ (0 <= 9 <= 12)%Z /\ (12 <= 2 * 9)%Z /\ (9 + 1 < 2 ^ 32)%Z) /\
  Rmin 2 1e10 <= dmriproposal_default_parameter_update 2 9 12.
Proof.
  assert (H1 : 0 <= 2) by lra.
  assert (H2 : (0 <= 9 <= 12)%Z) by lia.
  assert (H3 : (12 <= 2 * 9)%Z) by lia.
  assert (H4 : (9 + 1 < 2 ^ 32)%Z) by reflexivity.
  split; [auto | exact (default_update_grows 2 9 12 H1 H2 H3 H4)].
Defined.

(** X6. At most as many accepted as rejected jumps: a non-negative value does
    not grow. *)
Theorem default_update_shrinks (v : R) (a j : Z) :
  0 <= v ->
  (0 <= a <= j)%Z -> (2 * a <= j)%Z -> (j - a + 1 < 2 ^ 32)%Z ->
  dmriproposal_default_parameter_update v a j <= v.
Proof.
  intros Hv Haj Hhalf Hj.
  rewrite update_no_wrap by lia. unfold spec_default_update.
  apply Rle_trans with (v * sqrt ((IZR a + 1) / (IZR j - IZR a + 1)));
    [apply Rmin_l |].
  rewrite <- (Rmult_1_r v) at 2.
  apply Rmult_le_compat_l; [assumption |].
  apply sqrt_le_1.
  assert (Hx : 0 <= IZR a) by (apply IZR_le; lia).
  assert (Hh : 2 * IZR a <= IZR j)
    by (rewrite <- mult_IZR; apply IZR_le; lia).
  apply Rmult_le_reg_r with (IZR j - IZR a + 1); [lra |].
  unfold Rdiv. rewrite Rmult_assoc, Rinv_l by lra. lra.
Qed.

Lemma default_update_shrinks_witness :
  (0 <= 2 /\ (0 <= 3 <= 12)%Z /\ (2 * 3 <= 12)%Z /\
   (12 - 3 + 1 < 2 ^ 32)%Z) /\
  dmriproposal_default_parameter_update 2 3 12 <= 2.
Proof.
  assert (H1 : 0 <= 2) by lra.
  assert (H2 : (0 <= 3 <= 12)%Z) by lia.
  assert (H3 : (2 * 3 <= 12)%Z) by lia.
  assert (H4 : (12 - 3 + 1 < 2 ^ 32)%Z) by reflexivity.
  split; [auto | exact (default_update_shrinks 2 3 12 H1 H2 H3 H4)].
Defined.

(** X7. An acceptance counter above the jump counter by two or more and
    below [2^32 - 1], so that [a + 1] does not wrap: the unsigned
    difference wraps to [2^32 - (a - j)], and while the acceptance
    counter is at most [2^31] a non-negative value does not grow. *)
Theorem default_update_wrapped_difference (v : R) (a j : Z) :
  (0 <= j)%Z -> (j + 2 <= a)%Z -> (a + 1 < 2 ^ 32)%Z ->
  dmriproposal_default_parameter_update v a j =
    Rmin (v * sqrt ((IZR a + 1) / (4294967296 - (IZR a - IZR j) + 1))) 1e10 /\
  (0 <= v -> (a <= 2 ^ 31)%Z ->
   dmriproposal_default_parameter_update v a j <= v).
Proof.
  intros Hj Hgap Ha.
  assert (Heq : dmriproposal_default_parameter_update v a j =
    Rmin (v * sqrt ((IZR a + 1) / (4294967296 - (IZR a - IZR j) + 1))) 1e10).
  { rewrite update_unfold. unfold CL.uint_add, CL.uint_sub.
    rewrite (uint_negative (j - a)) by lia.
    rewrite (uint_small (a + 1)) by lia.
    rewrite (uint_small (j - a + 2 ^ 32 + 1)) by lia.
    rewrite !plus_IZR, minus_IZR.
    replace (IZR (2 ^ 32)) with 4294967296 by reflexivity.
    do 3 f_equal. f_equal. lra. }
  split; [exact Heq |].
  intros Hv Hsmall. rewrite Heq.
  eapply Rle_trans; [apply Rmin_l |].
  rewrite <- (Rmult_1_r v) at 2.
  apply Rmult_le_compat_l; [assumption |].
  apply sqrt_le_1.
  assert (Hx : IZR a <= 2147483648) by (apply (IZR_le a (2 ^ 31)); lia).
  assert (Hy : 0 <= IZR j) by (apply IZR_le; lia).
  apply Rmult_le_reg_r with (4294967296 - (IZR a - IZR j) + 1); [lra |].
  unfold Rdiv. rewrite Rmult_assoc, Rinv_l by lra. lra.
Qed.

Lemma default_update_wrapped_difference_witness :
  ((0 <= 0)%Z /\ (0 + 2 <= 9)%Z /\ (9 + 1 < 2 ^ 32)%Z /\ 0 <= 1 /\
   (9 <= 2 ^ 31)%Z) /\
  dmriproposal_default_parameter_update 1 9 0 =
    Rmin (1 * sqrt ((IZR 9 + 1) / (4294967296 - (IZR 9 - IZR 0) + 1))) 1e10 /\
  dmriproposal_default_parameter_update 1 9 0 <= 1.
Proof.
  assert (H1 : (0 <= 0)%Z) by lia.
  assert (H2 : (0 + 2 <= 9)%Z) by lia.
  assert (H3 : (9 + 1 < 2 ^ 32)%Z) by reflexivity.
  assert (H4 : 0 <= 1) by lra.
  assert (H5 : (9 <= 2 ^ 31)%Z) by (apply Zle_bool_imp_le; reflexivity).
  destruct (default_update_wrapped_difference 1 9 0 H1 H2 H3) as [Heq Hle].
  split; [auto |]. split; [exact Heq | exact (Hle H4 H5)].
Defined.

(** X8. The log-density is the same from [x] to [mu] as from [mu] to [x]. *)
Theorem gaussian_log_pdf_symmetric (x mu std : R) :
  dmriproposal_gaussianProposalLogPDF x mu std =
    dmriproposal_gaussianProposalLogPDF mu x std.
Proof.
  rewrite !log_pdf_matches_spec. unfold spec_gaussian_log_pdf.
  replace ((mu - x) / std) with (- ((x - mu) / std)) by (unfold Rdiv; ring).
  f_equal. f_equal. simpl. ring.
Qed.

(** X9. For a positive [std], nowhere is the log-density higher than at
    [x = mu]. *)
Theorem gaussian_log_pdf_mode (x mu std : R) :
  0 < std ->
  dmriproposal_gaussianProposalLogPDF x mu std <=
    dmriproposal_gaussianProposalLogPDF mu mu std.
Proof.
  intros _. rewrite !log_pdf_matches_spec. unfold spec_gaussian_log_pdf.
  replace ((mu - mu) / std) with 0 by (unfold Rdiv; ring).
  pose proof (pow2_ge_0 ((x - mu) / std)) as Hsq.
  simpl in *. lra.
Qed.

Lemma gaussian_log_pdf_mode_witness :
  0 < 2 /\
  dmriproposal_gaussianProposalLogPDF 5 3 2 <=
    dmriproposal_gaussianProposalLogPDF 3 3 2.
Proof.
  assert (H : 0 < 2) by lra.
  split; [exact H | exact (gaussian_log_pdf_mode 5 3 2 H)].
Defined.

End KernelExtras.

(** ** Further properties of the registry lookup *)

Module FactoryExtras.

Import Factory FactoryFacts.
Local Open Scope string_scope.

Lemma append_cancel_l (p a b : string) : p ++ a = p ++ b -> a = b.
Proof.
  induction p as [| ch p IH]; simpl; intros H.
  - exact H.
  - injection H as H. now apply IH.
Qed.

Lemma length_append (a b : string) :
  String.length (a ++ b) = (String.length a + String.length b)%nat.
Proof.
  induction a as [| ch a IH]; simpl; [reflexivity | now rewrite IH].
Qed.

Lemma append_cancel_r (s : string) :
  forall a b : string, a ++ s = b ++ s -> a = b.
Proof.
  induction a as [| ch a IH]; intros [| ch' b] H; simpl in H.
  - reflexivity.
  - apply (f_equal String.length) in H. simpl in H.
    rewrite length_append in H. lia.
  - apply (f_equal String.length) in H. simpl in H.
    rewrite length_append in H. lia.
  - injection H as Hch H. subst ch'. f_equal. now apply IH.
Qed.

Section GetItemExtras.

Context {Item : Type} (get_pretty_name : Item -> string).

Lemma first_named_member (name : string) (items : list Item) (item : Item) :
  first_named get_pretty_name name items item ->
  In item items /\ get_pretty_name item = name.
Proof.
  intros [before [after [Hitems [Hname _]]]]. subst items.
  split; [| exact Hname]. apply in_or_app. right. now left.
Qed.

(** X11. What a lookup returns is an entry of the list it was given, bears the
    requested name, and is the first entry to do so. *)
Theorem get_item_returns_member (name : string) (items : list Item)
    (factory_type : string) (item : Item) :
  _get_item get_pretty_name name items factory_type = Return item ->
  In item items /\ get_pretty_name item = name /\
  first_named get_pretty_name name items item.
Proof.
  intros Hret. apply get_item_returns_first in Hret.
  destruct (first_named_member _ _ _ Hret) as [Hin Hname]. auto.
Qed.

(** X12. A lookup raises only when no entry bears the name; the error is a
    [ValueError] with the fixed message around the name and the label. *)
Theorem get_item_raises_only_when_absent (name : string) (items : list Item)
    (factory_type : string) (e : exception) :
  _get_item get_pretty_name name items factory_type = Raise e ->
  Forall (fun other => get_pretty_name other <> name) items /\
  e = ValueError ("The item with the name " ++ name ++
                  " could not be found in the " ++ factory_type ++
                  " factory.").
Proof.
  intros Hraise.
  destruct (first_named_or_absent get_pretty_name name items)
    as [[found Hfound] | Hnone].
  - rewrite (get_item_first_named _ _ _ factory_type _ Hfound) in Hraise.
    discriminate.
  - split; [exact Hnone |].
    rewrite (get_item_absent _ _ _ factory_type Hnone) in Hraise.
    now injection Hraise.
Qed.

(** X13. Looking a name up in two lists laid end to end: the first list
    decides, the second is searched only when the first has no entry of
    that name. *)
Theorem get_item_app (name : string) (first second : list Item)
    (factory_type : string) :
  _get_item get_pretty_name name (first ++ second) factory_type =
    match _get_item get_pretty_name name first factory_type with
    | Return item => Return item
    | Raise _ => _get_item get_pretty_name name second factory_type
    end.
Proof.
  induction first as [| head first IH]; simpl.
  - reflexivity.
  - destruct (get_pretty_name head =? name); [reflexivity | exact IH].
Qed.

(** X14. When no two entries share a pretty name, looking up the name of an
    entry gives back that entry. *)
Theorem get_item_round_trip (items : list Item) (factory_type : string)
    (item : Item) :
  NoDup (map get_pretty_name items) ->
  In item items ->
  _get_item get_pretty_name (get_pretty_name item) items factory_type
    = Return item.
Proof.
  induction items as [| head rest IH]; intros Hnodup Hin; [contradiction |].
  simpl in Hnodup. inversion Hnodup as [| ? ? Hfresh Hrest]; subst.
  simpl. destruct (String.eqb_spec (get_pretty_name head)
                                   (get_pretty_name item)) as [Heq | Hne].
  - destruct Hin as [-> | Hin]; [reflexivity |].
    exfalso. apply Hfresh. rewrite Heq. now apply in_map.
  - destruct Hin as [-> | Hin]; [contradiction |].
    now apply IH.
Qed.

(** X15. Two failed lookups raise the same error only if, the labels being
    equal, the names are, and the names being equal, the labels are. *)
Theorem get_item_error_identifies (name name' : string)
    (items items' : list Item) (label label' : string) (e : exception) :
  _get_item get_pretty_name name items label = Raise e ->
  _get_item get_pretty_name name' items' label' = Raise e ->
  (label = label' -> name = name') /\ (name = name' -> label = label').
Proof.
  intros H1 H2.
  apply get_item_raises_only_when_absent in H1 as [_ H1].
  apply get_item_raises_only_when_absent in H2 as [_ H2].
  assert (Hmsg : "The item with the name " ++ name ++
                 " could not be found in the " ++ label ++ " factory." =
                 "The item with the name " ++ name' ++
                 " could not be found in the " ++ label' ++ " factory.")
    by congruence.
  apply (append_cancel_l "The item with the name ") in Hmsg.
  split.
  - intros <-. now apply append_cancel_r in Hmsg.
  - intros <-. apply (append_cancel_l name) in Hmsg.
    apply (append_cancel_l " could not be found in the ") in Hmsg.
    now apply append_cancel_r in Hmsg.
Qed.

End GetItemExtras.

Lemma get_item_returns_member_witness :
  _get_item class_name "Powell" optimizers "optimizers" = Return Powell /\
  In Powell optimizers /\ class_name Powell = "Powell" /\
  first_named class_name "Powell" optimizers Powell.
Proof.
  assert (H : _get_item class_name "Powell" optimizers "optimizers"
              = Return Powell) by reflexivity.
  split; [exact H |].
  exact (get_item_returns_member class_name "Powell" optimizers "optimizers"
           Powell H).
Defined.

Lemma get_item_raises_only_when_absent_witness :
  _get_item class_name "Powell" filters "smoothers" =
    Raise (ValueError "The item with the name Powell could not be found in the smoothers factory.") /\
  Forall (fun other => class_name other <> "Powell") filters.
Proof.
  assert (H : _get_item class_name "Powell" filters "smoothers" =
    Raise (ValueError "The item with the name Powell could not be found in the smoothers factory."))
    by reflexivity.
  split; [exact H |].
  exact (proj1 (get_item_raises_only_when_absent class_name "Powell" filters
                  "smoothers" _ H)).
Defined.

Lemma class_names_distinct_lb : NoDup (map class_name lb).
Proof.
  repeat (constructor;
          [simpl; intros Hin;
           repeat (destruct Hin as [Hin | Hin]; [discriminate |]);
           exact Hin |]).
  constructor.
Qed.

Lemma get_item_round_trip_witness :
  NoDup (map class_name lb) /\ In PreferCPU lb /\
  _get_item class_name (class_name PreferCPU) lb "load balancers"
    = Return PreferCPU.
Proof.
  assert (H1 : NoDup (map class_name lb)) by exact class_names_distinct_lb.
  assert (H2 : In PreferCPU lb) by (simpl; tauto).
  split; [exact H1 |]. split; [exact H2 |].
  exact (get_item_round_trip class_name lb "load balancers" PreferCPU H1 H2).
Defined.

Lemma get_item_error_identifies_witness :
  (_get_item class_name "Nobody" optimizers "optimizers" =
     Raise (ValueError "The item with the name Nobody could not be found in the optimizers factory.") /\
   _get_item class_name "Nobody" [] "optimizers" =
     Raise (ValueError "The item with the name Nobody could not be found in the optimizers factory.")) /\
  ("optimizers" = "optimizers" -> "Nobody" = "Nobody") /\
  ("Nobody" = "Nobody" -> "optimizers" = "optimizers").
Proof.
  assert (H1 : _get_item class_name "Nobody" optimizers "optimizers" =
     Raise (ValueError "The item with the name Nobody could not be found in the optimizers factory."))
    by reflexivity.
  assert (H2 : _get_item class_name "Nobody" [] "optimizers" =
     Raise (ValueError "The item with the name Nobody could not be found in the optimizers factory."))
    by reflexivity.
  split; [auto |].
  exact (get_item_error_identifies class_name "Nobody" "Nobody" optimizers []
           "optimizers" "optimizers" _ H1 H2).
Defined.

End FactoryExtras.

(** ** Further properties of the proposal classes *)

Module ProposalExtras.

Import Py Proposals Text.
Local Open Scope string_scope.



End ProposalExtras.
